(** * Verification of the o5-github-lambda webhook handler

    Shallow embedding of [internal/github/webhook.go]: the structure that
    [cmd/lambda] wires up.  Go pointers are [option]s, Go errors are their
    message strings, and [HandleLambda]'s Go result (a response pointer and an error) is an
    outcome in a small writer/error monad whose log records every call made
    to an external collaborator (media-type parsing, base64, HMAC payload
    validation, webhook parsing, message wrapping and the publishers). *)

From Stdlib Require Import String Ascii List ZArith Bool.
Import ListNotations.
Open Scope string_scope.

(* ------------------------------------------------------------------ *)
(** ** go-github event types (the fields the handler reads) *)

Record User := mkUser {
  Login : option string;
  Name : option string
}.

(** [github.PushEventRepository] *)
Record PushEventRepository := mkPushEventRepository {
  per_Owner : option User;
  per_Name : option string
}.

(** [github.PushEvent] *)
Record PushEvent := mkPushEvent {
  Ref : option string;
  Before : option string;
  After : option string;
  pe_Repo : option PushEventRepository
}.

(** [github.Repository] *)
Record Repository := mkRepository {
  repo_Owner : option User;
  repo_Name : option string
}.

(** [github.CheckSuite] *)
Record CheckSuite := mkCheckSuite {
  HeadBranch : option string;
  BeforeSHA : option string;
  AfterSHA : option string
}.

(** [github.CheckRun] *)
Record CheckRun := mkCheckRun {
  cr_ID : option Z;
  cr_Name : option string;
  cr_CheckSuite : option CheckSuite
}.

(** [github.CheckRunEvent] *)
Record CheckRunEvent := mkCheckRunEvent {
  Action : option string;
  cre_Repo : option Repository;
  cre_CheckRun : option CheckRun
}.

(** The value returned by [github.ParseWebHook]: a push event, a check-run
    event, or any other event (with its [%s] rendering). *)
Inductive AnyEvent :=
| EvPush (e : PushEvent)
| EvCheckRun (e : CheckRunEvent)
| EvOther (shown : string).

(* ------------------------------------------------------------------ *)
(** ** Outbound messages ([github_tpb]) and the o5 wire message *)

Record PushMessage := mkPushMessage {
  pm_DeliveryId : string;
  pm_Before : string;
  pm_After : string;
  pm_Ref : string;
  pm_Repo : string;
  pm_Owner : string
}.

Record CheckRunMessage := mkCheckRunMessage {
  crm_DeliveryId : string;
  crm_Action : string;
  crm_Owner : string;
  crm_Repo : string;
  crm_CheckRunName : string;
  crm_CheckRunId : Z;
  crm_Ref : string;
  crm_Before : string;
  crm_After : string
}.

(** [o5msg.Message] as passed to [publish]. *)
Inductive Message :=
| MPush (m : PushMessage)
| MCheckRun (m : CheckRunMessage).

(** [messaging_pb.Message]: the fields the handler touches. *)
Record WireMessage := mkWireMessage {
  MessageId : string;
  SourceApp : string;
  SourceEnv : string;
  Payload : Message
}.

(* ------------------------------------------------------------------ *)
(** ** Requests, responses, configuration *)

Definition error := string.

(** [events.APIGatewayV2HTTPRequest] *)
Record Request := mkRequest {
  Headers : list (string * string);
  Body : string;
  IsBase64Encoded : bool
}.

(** [events.APIGatewayV2HTTPResponse] *)
Record Response := mkResponse {
  StatusCode : Z;
  RBody : string
}.

Definition StatusOK : Z := 200.
Definition StatusBadRequest : Z := 400.

Record SourceConfig := mkSourceConfig {
  cfg_SourceApp : string;
  cfg_SourceEnv : string
}.

(** [awsmsg.Publisher]: an identifier and the outcome of [Publish] on a
    wire message ([None] is a nil error). *)
Record Publisher := mkPublisher {
  PublisherID : string;
  Publish : WireMessage -> option error
}.

Record WebhookWorker := mkWebhookWorker {
  publishers : list Publisher;
  secretToken : string;
  Source : SourceConfig
}.

(** The library functions [HandleLambda] calls, with their results:
    [mime.ParseMediaType], [base64.StdEncoding.DecodeString],
    [github.ValidatePayloadFromBody], [github.ParseWebHook] and
    [o5msg.WrapMessage]. *)
Inductive result (A : Type) :=
| ROk (a : A)
| RErr (e : error).
Arguments ROk {A} a.
Arguments RErr {A} e.

Record Env := mkEnv {
  ParseMediaType : string -> result string;
  DecodeString : string -> result string;
  ValidatePayloadFromBody : string -> string -> string -> string -> result string;
  ParseWebHook : string -> string -> result AnyEvent;
  WrapMessage : Message -> result WireMessage
}.

(* ------------------------------------------------------------------ *)
(** ** The handler monad: a log of external calls and a Go outcome *)

(** One call to an external collaborator, with the arguments it got. *)
Inductive Call :=
| CParseMediaType (v : string)
| CDecodeString (body : string)
| CValidatePayload (contentType body signature : string)
| CParseWebHook (eventType payload : string)
| CWrapMessage (m : Message)
| CPublish (publisherId : string) (w : WireMessage).

(** How a Go function returns: a value with a nil error, a non-nil
    error ([return nil, err]), or a run-time panic (nil dereference). *)
Inductive Outcome (A : Type) :=
| Ok (a : A)
| Fail (e : error)
| Panic.
Arguments Ok {A} a.
Arguments Fail {A} e.
Arguments Panic {A}.

Definition M (A : Type) : Type := list Call * Outcome A.

Definition ret {A} (a : A) : M A := ([], Ok a).

Definition bind {A B} (m : M A) (f : A -> M B) : M B :=
  match m with
  | (t, Ok a) => let (t', r) := f a in (app t t', r)
  | (t, Fail e) => (t, Fail e)
  | (t, Panic) => (t, Panic)
  end.

Notation "x <- c1 ;; c2" := (bind c1 (fun x => c2))
  (at level 61, c1 at next level, right associativity).

Definition trace {A} (m : M A) : list Call := fst m.
Definition outcome {A} (m : M A) : Outcome A := snd m.

(** Call an external function, wrapping its error like
    [fmt.Errorf("...: %w", err)]. *)
Definition extern {A} (c : Call) (r : result A) (wrap : error -> error) : M A :=
  ([c], match r with ROk a => Ok a | RErr e => Fail (wrap e) end).

(** [*p] in Go: a nil pointer panics. *)
Definition deref {A} (p : option A) : M A :=
  match p with Some a => ret a | None => ([], Panic) end.

(* ------------------------------------------------------------------ *)
(** ** [net/http.Header] *)

Definition ascii_upper (c : ascii) : ascii :=
  let n := nat_of_ascii c in
  if (97 <=? n)%nat && (n <=? 122)%nat then ascii_of_nat (n - 32) else c.

Definition ascii_lower (c : ascii) : ascii :=
  let n := nat_of_ascii c in
  if (65 <=? n)%nat && (n <=? 90)%nat then ascii_of_nat (n + 32) else c.

(** A byte that [textproto] accepts in a canonicalisable key: a printable
    ASCII character other than space and ':'. *)
Definition valid_header_byte (c : ascii) : bool :=
  let n := nat_of_ascii c in
  (33 <=? n)%nat && (n <=? 126)%nat && negb (n =? 58)%nat.

Fixpoint all_valid (s : string) : bool :=
  match s with
  | EmptyString => true
  | String c s' => valid_header_byte c && all_valid s'
  end.

Fixpoint canon_from (upper : bool) (s : string) : string :=
  match s with
  | EmptyString => EmptyString
  | String c s' =>
      String (if upper then ascii_upper c else ascii_lower c)
             (canon_from (Ascii.eqb c "-"%char) s')
  end.

(** [textproto.CanonicalMIMEHeaderKey]: first letter and letters after a
    hyphen upper case, the rest lower case; keys with invalid bytes are
    left unchanged. *)
Definition CanonicalMIMEHeaderKey (s : string) : string :=
  if all_valid s then canon_from true s else s.

(** An [http.Header] as its (canonical key, value) pairs in the order they
    were added; [Add] appends a value under the canonical key. *)
Definition Header := list (string * string).

Definition header_add (h : Header) (k v : string) : Header :=
  app h [(CanonicalMIMEHeaderKey k, v)].

(** [Header.Get]: the first value under the canonical key, or "". *)
Fixpoint header_get (h : Header) (k : string) : string :=
  match h with
  | [] => ""
  | (k', v) :: h' =>
      if String.eqb k' (CanonicalMIMEHeaderKey k) then v else header_get h' k
  end.

(** [for k, v := range request.Headers { header.Add(k, v) }] *)
Definition header_of (hs : list (string * string)) : Header :=
  fold_left (fun h kv => header_add h (fst kv) (snd kv)) hs [].

(** go-github's header names. *)
Definition SHA256SignatureHeader := "X-Hub-Signature-256".
Definition SHA1SignatureHeader := "X-Hub-Signature".
Definition DeliveryIDHeader := "X-Github-Delivery".

(* ------------------------------------------------------------------ *)
(** ** Validation *)

Definition emptyCommit := "0000000000000000000000000000000000000000".

Definition validateRepo1 (repo : option PushEventRepository) : option error :=
  match repo with
  | None => Some "nil 'repo' on check_run event"
  | Some r =>
      match per_Owner r with
      | None => Some "nil 'repo.owner' on check_run event"
      | Some o =>
          match Name o with
          | None => Some "nil 'repo.owner.name' on check_run event"
          | Some _ =>
              match per_Name r with
              | None => Some "nil 'repo.name' on check_run event"
              | Some _ => None
              end
          end
      end
  end.

Definition validateRepo (repo : option Repository) : option error :=
  match repo with
  | None => Some "nil 'repo' on check_run event"
  | Some r =>
      match repo_Owner r with
      | None => Some "nil 'repo.owner' on check_run event"
      | Some o =>
          match Login o with
          | None => Some "nil 'repo.owner.login' on check_run event"
          | Some _ =>
              match repo_Name r with
              | None => Some "nil 'repo.name' on check_run event"
              | Some _ => None
              end
          end
      end
  end.

Definition validatePushEvent (event : PushEvent) : option error :=
  match Ref event with
  | None => Some "nil 'ref' on push event"
  | Some _ =>
      match validateRepo1 (pe_Repo event) with
      | Some err => Some err
      | None =>
          match After event with
          | None => Some "nil 'after' on push event"
          | Some _ =>
              match Before event with
              | None => Some "nil 'before' on push event"
              | Some _ => None
              end
          end
      end
  end.

Definition validateCheckRunEvent (event : CheckRunEvent) : option error :=
  match Action event with
  | None => Some "nil 'action' on check_run event"
  | Some _ =>
      match validateRepo (cre_Repo event) with
      | Some err => Some err
      | None =>
          match cre_CheckRun event with
          | None => Some "nil 'check_run' on check_run event"
          | Some cr =>
              match cr_Name cr with
              | None => Some "nil 'check_run.name' on check_run event"
              | Some _ =>
                  match cr_ID cr with
                  | None => Some "nil 'check_run.id' on check_run event"
                  | Some _ =>
                      match cr_CheckSuite cr with
                      | None => Some "nil 'check_run.check_suite' on check_run event"
                      | Some cs =>
                          match HeadBranch cs with
                          | None => Some "nil 'check_run.check_suite.head_branch' on check_run event"
                          | Some _ =>
                              match BeforeSHA cs with
                              | None => Some "nil 'check_run.check_suite.before_sha' on check_run event"
                              | Some _ =>
                                  match AfterSHA cs with
                                  | None => Some "nil 'check_run.check_suite.after_sha' on check_run event"
                                  | Some _ => None
                                  end
                              end
                          end
                      end
                  end
              end
          end
      end
  end.

(* ------------------------------------------------------------------ *)
(** ** Publishing and the event handlers *)

(** [strings.Join] *)
Fixpoint join (sep : string) (xs : list string) : string :=
  match xs with
  | [] => ""
  | [x] => x
  | x :: xs' => x ++ sep ++ join sep xs'
  end.

Definition nl := String (ascii_of_nat 10) EmptyString.

(** The [for _, publisher := range ww.publishers] loop of [publish]: each
    publisher is called in order, the first error is returned, and each
    success appends a line to [output]. *)
Fixpoint publish_loop (pubs : list Publisher) (w : WireMessage)
    (output : list string) : M (list string) :=
  match pubs with
  | [] => ret output
  | p :: ps =>
      _ <- ([CPublish (PublisherID p) w],
            match Publish p w with Some err => Fail err | None => Ok tt end) ;;
      publish_loop ps w (app output ["Published to " ++ PublisherID p])
  end.

Definition publish (env : Env) (ww : WebhookWorker) (msg : Message) : M Response :=
  wireMessage0 <- extern (CWrapMessage msg) (WrapMessage env msg) (fun e => e) ;;
  let wireMessage :=
    mkWireMessage (MessageId wireMessage0) (cfg_SourceApp (Source ww))
                  (cfg_SourceEnv (Source ww)) (Payload wireMessage0) in
  let output := ["O5 Message ID: " ++ MessageId wireMessage] in
  output <- publish_loop (publishers ww) wireMessage output ;;
  ret (mkResponse StatusOK ("HOOK OK" ++ nl ++ join nl output)).

Definition handleCheckRunEvent (env : Env) (ww : WebhookWorker)
    (deliveryID : string) (event : CheckRunEvent) : M Response :=
  match validateCheckRunEvent event with
  | Some err => ret (mkResponse StatusBadRequest err)
  | None =>
      action <- deref (Action event) ;;
      repo <- deref (cre_Repo event) ;;
      owner <- deref (repo_Owner repo) ;;
      login <- deref (Login owner) ;;
      name <- deref (repo_Name repo) ;;
      cr <- deref (cre_CheckRun event) ;;
      crName <- deref (cr_Name cr) ;;
      crId <- deref (cr_ID cr) ;;
      cs <- deref (cr_CheckSuite cr) ;;
      head <- deref (HeadBranch cs) ;;
      before <- deref (BeforeSHA cs) ;;
      after <- deref (AfterSHA cs) ;;
      let msg := mkCheckRunMessage deliveryID action login name crName crId
                   ("refs/heads/" ++ head) before after in
      publish env ww (MCheckRun msg)
  end.

Definition handlePushEvent (env : Env) (ww : WebhookWorker)
    (deliveryID : string) (event : PushEvent) : M Response :=
  match validatePushEvent event with
  | Some err => ret (mkResponse StatusBadRequest err)
  | None =>
      after <- deref (After event) ;;
      if String.eqb after emptyCommit then
        ret (mkResponse StatusOK "push event has empty after commit - no event created")
      else
        before <- deref (Before event) ;;
        after <- deref (After event) ;;
        ref <- deref (Ref event) ;;
        repo <- deref (pe_Repo event) ;;
        name <- deref (per_Name repo) ;;
        owner <- deref (per_Owner repo) ;;
        ownerName <- deref (Name owner) ;;
        let msg := mkPushMessage deliveryID before after ref name ownerName in
        publish env ww (MPush msg)
  end.

(** [HandleLambda].  The debug log line has no effect on the result and
    is left out. *)
Definition HandleLambda (env : Env) (ww : WebhookWorker) (request : Request)
    : M Response :=
  let header := header_of (Headers request) in
  let signature :=
    let s := header_get header SHA256SignatureHeader in
    if String.eqb s "" then header_get header SHA1SignatureHeader else s in
  let deliveryID := header_get header DeliveryIDHeader in
  if String.eqb deliveryID "" then
    ret (mkResponse StatusBadRequest "missing delivery ID")
  else
    let ct := header_get header "Content-Type" in
    contentType <- extern (CParseMediaType ct) (ParseMediaType env ct)
                     (fun err => "parse media type from '" ++ ct ++ "': " ++ err) ;;
    bodyBytes <- (if IsBase64Encoded request then
                    extern (CDecodeString (Body request)) (DecodeString env (Body request))
                      (fun err => "decoding body: " ++ err)
                  else ret (Body request)) ;;
    verifiedPayload <-
      extern (CValidatePayload contentType bodyBytes signature)
        (ValidatePayloadFromBody env contentType bodyBytes signature (secretToken ww))
        (fun err => "validating payload: " ++ err) ;;
    let ty := header_get header "X-GitHub-Event" in
    anyEvent <- extern (CParseWebHook ty verifiedPayload) (ParseWebHook env ty verifiedPayload)
                  (fun err => "parsing webhook: " ++ err) ;;
    match anyEvent with
    | EvPush event => handlePushEvent env ww deliveryID event
    | EvCheckRun event => handleCheckRunEvent env ww deliveryID event
    | EvOther shown => ret (mkResponse StatusBadRequest ("unhandled event type " ++ shown))
    end.

(* ------------------------------------------------------------------ *)
(** ** The spec's ordered tables of required fields *)

(** The first field of an ordered (path, presence) table that is absent. *)
Fixpoint first_missing {E} (fields : list (string * (E -> bool))) (e : E)
    : option string :=
  match fields with
  | [] => None
  | (path, present) :: fs => if present e then first_missing fs e else Some path
  end.

Definition present {A} (o : option A) : bool :=
  match o with Some _ => true | None => false end.

(** The push fields in the order the spec lists them. *)
Definition push_required_fields : list (string * (PushEvent -> bool)) :=
  [ ("ref", fun e => present (Ref e));
    ("repo", fun e => present (pe_Repo e));
    ("repo.owner", fun e =>
       match pe_Repo e with Some r => present (per_Owner r) | None => false end);
    ("repo.owner.name", fun e =>
       match pe_Repo e with
       | Some r => match per_Owner r with Some o => present (Name o) | None => false end
       | None => false end);
    ("repo.name", fun e =>
       match pe_Repo e with Some r => present (per_Name r) | None => false end);
    ("after", fun e => present (After e));
    ("before", fun e => present (Before e)) ].

Definition check_suite_of (e : CheckRunEvent) : option CheckSuite :=
  match cre_CheckRun e with Some cr => cr_CheckSuite cr | None => None end.

(** The check-run fields in the order the spec lists them. *)
Definition checkrun_required_fields : list (string * (CheckRunEvent -> bool)) :=
  [ ("action", fun e => present (Action e));
    ("repo", fun e => present (cre_Repo e));
    ("repo.owner", fun e =>
       match cre_Repo e with Some r => present (repo_Owner r) | None => false end);
    ("repo.owner.login", fun e =>
       match cre_Repo e with
       | Some r => match repo_Owner r with Some o => present (Login o) | None => false end
       | None => false end);
    ("repo.name", fun e =>
       match cre_Repo e with Some r => present (repo_Name r) | None => false end);
    ("check_run", fun e => present (cre_CheckRun e));
    ("check_run.name", fun e =>
       match cre_CheckRun e with Some cr => present (cr_Name cr) | None => false end);
    ("check_run.id", fun e =>
       match cre_CheckRun e with Some cr => present (cr_ID cr) | None => false end);
    ("check_run.check_suite", fun e => present (check_suite_of e));
    ("check_run.check_suite.head_branch", fun e =>
       match check_suite_of e with Some cs => present (HeadBranch cs) | None => false end);
    ("check_run.check_suite.before_sha", fun e =>
       match check_suite_of e with Some cs => present (BeforeSHA cs) | None => false end);
    ("check_run.check_suite.after_sha", fun e =>
       match check_suite_of e with Some cs => present (AfterSHA cs) | None => false end) ].

(** The error message the spec asks for a missing field. *)
Definition nil_field_message (path kind : string) : error :=
  "nil '" ++ path ++ "' on " ++ kind ++ " event".

(* ------------------------------------------------------------------ *)
(** ** Fixtures *)

Definition env_ok : Env :=
  mkEnv (fun _ => ROk "application/json") (fun s => ROk s)
        (fun _ body _ _ => ROk body) (fun _ _ => RErr "unknown X-Github-Event")
        (fun m => ROk (mkWireMessage "id-1" "" "" m)).

Definition pub_ok (id : string) : Publisher := mkPublisher id (fun _ => None).
Definition pub_err (id : string) : Publisher := mkPublisher id (fun _ => Some "boom").

Definition ww_of (pubs : list Publisher) : WebhookWorker :=
  mkWebhookWorker pubs "secret" (mkSourceConfig "github-webhook" "prod").

Definition push_main : PushEvent :=
  mkPushEvent (Some "refs/heads/main") (Some "aaa") (Some "bbb")
    (Some (mkPushEventRepository (Some (mkUser None (Some "o"))) (Some "r"))).

Definition push_deleted : PushEvent :=
  mkPushEvent (Some "refs/heads/main") (Some "aaa") (Some emptyCommit)
    (Some (mkPushEventRepository (Some (mkUser None (Some "o"))) (Some "r"))).

Definition checkrun_full (after : option string) : CheckRunEvent :=
  mkCheckRunEvent (Some "completed")
    (Some (mkRepository (Some (mkUser (Some "o") None)) (Some "r")))
    (Some (mkCheckRun (Some 7%Z) (Some "build")
             (Some (mkCheckSuite (Some "main") (Some "aaa") after)))).

Example push_main_published :
  outcome (handlePushEvent env_ok (ww_of [pub_ok "bus"; pub_ok "topic"]) "d-1" push_main)
  = Ok (mkResponse 200 ("HOOK OK" ++ nl ++ "O5 Message ID: id-1" ++ nl
                        ++ "Published to bus" ++ nl ++ "Published to topic")).
Proof. reflexivity. Qed.

Example push_first_sink_fails :
  handlePushEvent env_ok (ww_of [pub_err "bus"; pub_ok "topic"]) "d-1" push_main
  = ([CWrapMessage (MPush (mkPushMessage "d-1" "aaa" "bbb" "refs/heads/main" "r" "o"));
      CPublish "bus" (mkWireMessage "id-1" "github-webhook" "prod"
                        (MPush (mkPushMessage "d-1" "aaa" "bbb" "refs/heads/main" "r" "o")))],
     Fail "boom").
Proof. reflexivity. Qed.

Example checkrun_missing_after :
  outcome (handleCheckRunEvent env_ok (ww_of [pub_ok "bus"]) "d-1" (checkrun_full None))
  = Ok (mkResponse 400 "nil 'check_run.check_suite.after_sha' on check_run event").
Proof. reflexivity. Qed.

(* ------------------------------------------------------------------ *)
(** ** Monad lemmas *)

Lemma bind_ok {A B} (t : list Call) (a : A) (f : A -> M B) :
  bind (t, Ok a) f = (app t (trace (f a)), outcome (f a)).
Proof. unfold bind, trace, outcome. now destruct (f a). Qed.

Lemma bind_ret {A B} (a : A) (f : A -> M B) : bind (ret a) f = f a.
Proof. unfold bind, ret. now destruct (f a). Qed.

(** Every call a computation logs satisfies [Q]. *)
Definition trace_all {A} (Q : Call -> Prop) (m : M A) : Prop :=
  Forall Q (trace m).

Lemma trace_all_bind {A B} (Q : Call -> Prop) (m : M A) (f : A -> M B) :
  trace_all Q m -> (forall a, trace_all Q (f a)) -> trace_all Q (bind m f).
Proof.
  unfold trace_all, trace. intros Hm Hf.
  destruct m as [t [a| e |]]; simpl in *; auto.
  specialize (Hf a). destruct (f a) as [t' r]. simpl in *.
  now apply Forall_app.
Qed.

Lemma trace_all_ret {A} Q (a : A) : trace_all Q (ret a).
Proof. constructor. Qed.

Lemma trace_all_deref {A} Q (p : option A) : trace_all Q (deref p).
Proof. destruct p; constructor. Qed.

(** A computation that never panics. *)
Definition no_panic {A} (m : M A) : Prop := outcome m <> Panic.

Lemma no_panic_bind {A B} (m : M A) (f : A -> M B) :
  no_panic m -> (forall a, no_panic (f a)) -> no_panic (bind m f).
Proof.
  unfold no_panic, outcome. intros Hm Hf.
  destruct m as [t [a| e |]]; simpl in *; try discriminate; auto.
  specialize (Hf a). now destruct (f a).
Qed.

Lemma no_panic_ret {A} (a : A) : no_panic (ret a).
Proof. discriminate. Qed.

Lemma no_panic_deref_some {A} (a : A) : no_panic (deref (Some a)).
Proof. discriminate. Qed.

Lemma no_panic_extern {A} c (r : result A) w : no_panic (extern c r w).
Proof. unfold no_panic, extern, outcome. destruct r; discriminate. Qed.

(* ------------------------------------------------------------------ *)
(** ** The publish loop *)

Definition publish_call (w : WireMessage) (q : Publisher) : Call :=
  CPublish (PublisherID q) w.

Definition published_line (q : Publisher) : string :=
  "Published to " ++ PublisherID q.

Lemma publish_loop_ok pubs w output :
  (forall q, In q pubs -> Publish q w = None) ->
  publish_loop pubs w output
  = (map (publish_call w) pubs, Ok (app output (map published_line pubs))).
Proof.
  revert output. induction pubs as [|p ps IH]; intros output Hok.
  - simpl. now rewrite app_nil_r.
  - simpl. rewrite (Hok p (or_introl eq_refl)). simpl.
    rewrite IH by (intros q Hq; apply Hok; now right).
    simpl. now rewrite <- app_assoc.
Qed.

Lemma publish_loop_fail pre p post w output e :
  (forall q, In q pre -> Publish q w = None) ->
  Publish p w = Some e ->
  publish_loop (app pre (p :: post)) w output
  = (map (publish_call w) (app pre [p]), Fail e).
Proof.
  revert output. induction pre as [|q qs IH]; intros output Hok Hp.
  - simpl. now rewrite Hp.
  - simpl. rewrite (Hok q (or_introl eq_refl)). simpl.
    rewrite IH by (auto; intros r Hr; apply Hok; now right).
    reflexivity.
Qed.

Lemma publish_loop_no_panic pubs w output : no_panic (publish_loop pubs w output).
Proof.
  revert output. induction pubs as [|p ps IH]; intros output; cbn [publish_loop].
  - apply no_panic_ret.
  - apply no_panic_bind; [| intros; apply IH].
    unfold no_panic, outcome. simpl. destruct (Publish p w); discriminate.
Qed.

Lemma publish_no_panic env ww msg : no_panic (publish env ww msg).
Proof.
  unfold publish. apply no_panic_bind; [apply no_panic_extern|intros w0].
  apply no_panic_bind; [apply publish_loop_no_panic|intros; apply no_panic_ret].
Qed.

(** The wire message [publish] sends: the wrapped message stamped with the
    worker's source configuration. *)
Definition stamped (ww : WebhookWorker) (w0 : WireMessage) : WireMessage :=
  mkWireMessage (MessageId w0) (cfg_SourceApp (Source ww))
                (cfg_SourceEnv (Source ww)) (Payload w0).

Lemma publish_ok env ww msg w0 :
  WrapMessage env msg = ROk w0 ->
  (forall q, In q (publishers ww) -> Publish q (stamped ww w0) = None) ->
  publish env ww msg
  = (CWrapMessage msg :: map (publish_call (stamped ww w0)) (publishers ww),
     Ok (mkResponse StatusOK
           ("HOOK OK" ++ nl ++
            join nl (("O5 Message ID: " ++ MessageId w0)
                       :: map published_line (publishers ww))))).
Proof.
  intros Hw Hok. unfold publish, extern. rewrite Hw, bind_ok.
  fold (stamped ww w0). rewrite publish_loop_ok by exact Hok.
  rewrite bind_ok. unfold trace, outcome, ret; simpl. now rewrite app_nil_r.
Qed.

(* ------------------------------------------------------------------ *)
(** ** What validation guarantees *)

Lemma validatePushEvent_ok e :
  validatePushEvent e = None ->
  exists r b a rp o rn on,
    Ref e = Some r /\ Before e = Some b /\ After e = Some a /\
    pe_Repo e = Some rp /\ per_Owner rp = Some o /\ Name o = Some on /\
    per_Name rp = Some rn.
Proof.
  destruct e as [[r|] [b|] [a|] [[[[l [on|]]|] [rn|]]|]]; simpl;
    intros H; try discriminate; do 7 eexists; repeat split.
Qed.

Lemma validateCheckRunEvent_ok e :
  validateCheckRunEvent e = None ->
  exists act rp o login rn cr crName crId cs head before after,
    Action e = Some act /\ cre_Repo e = Some rp /\ repo_Owner rp = Some o /\
    Login o = Some login /\ repo_Name rp = Some rn /\ cre_CheckRun e = Some cr /\
    cr_Name cr = Some crName /\ cr_ID cr = Some crId /\
    cr_CheckSuite cr = Some cs /\ HeadBranch cs = Some head /\
    BeforeSHA cs = Some before /\ AfterSHA cs = Some after.
Proof.
  destruct e as [[act|] [[[[[l|] n]|] [rn|]]|]
                 [[[id|] [nm|] [[[hb|] [bs|] [af|]]|]]|]]; simpl;
    intros H; try discriminate; do 12 eexists; repeat split.
Qed.

Lemma validateCheckRunEvent_table e :
  validateCheckRunEvent e
  = option_map (fun p => nil_field_message p "check_run")
               (first_missing checkrun_required_fields e).
Proof.
  destruct e as [[act|] [[[[[l|] n]|] [rn|]]|]
                 [[[id|] [nm|] [[[hb|] [bs|] [af|]]|]]|]]; reflexivity.
Qed.

(** Which suffix [validatePushEvent] puts on a missing path: the repository
    checks are done by [validateRepo1], whose messages say "check_run". *)
Definition push_message_kind (path : string) : string :=
  if String.prefix "repo" path then "check_run" else "push".

Lemma validatePushEvent_table e :
  validatePushEvent e
  = option_map (fun p => nil_field_message p (push_message_kind p))
               (first_missing push_required_fields e).
Proof.
  destruct e as [[r|] [b|] [a|] [[[[l [on|]]|] [rn|]]|]]; reflexivity.
Qed.

Lemma extern_ROk {A} c (a : A) w : extern c (ROk a) w = ([c], Ok a).
Proof. reflexivity. Qed.

Lemma extern_RErr {A} c e w : extern (A := A) c (RErr e) w = ([c], Fail (w e)).
Proof. reflexivity. Qed.

Lemma outcome_bind_ok {A B} t (a : A) (f : A -> M B) :
  outcome (bind (t, Ok a) f) = outcome (f a).
Proof. unfold bind, outcome. now destruct (f a). Qed.

Lemma outcome_bind_fail {A B} t e (f : A -> M B) :
  outcome (bind (t, Fail e) f) = Fail e.
Proof. reflexivity. Qed.

(** The body-decoding step of [HandleLambda] when it yields [b]. *)
Lemma outcome_bind_ok_if {B} env request b w (f : string -> M B) :
  (if IsBase64Encoded request then DecodeString env (Body request)
   else ROk (Body request)) = ROk b ->
  outcome (bind (if IsBase64Encoded request then
                   extern (CDecodeString (Body request)) (DecodeString env (Body request)) w
                 else ret (Body request)) f)
  = outcome (f b).
Proof.
  destruct (IsBase64Encoded request); intros Hb.
  - rewrite Hb, extern_ROk. apply outcome_bind_ok.
  - injection Hb as <-. now rewrite bind_ret.
Qed.

(* ------------------------------------------------------------------ *)
(** ** Claims *)

(** C1: a push event that passes validation and whose [after] is the
    all-zero deletion sentinel is answered 200 with the skip message, and
    no external call is made, so no publisher is invoked. *)
Theorem handlePushEvent_deletion_skipped env ww deliveryID event
    (Hvalid : validatePushEvent event = None)
    (Hafter : After event = Some emptyCommit) :
  handlePushEvent env ww deliveryID event
  = ([], Ok (mkResponse StatusOK "push event has empty after commit - no event created")).
Proof. unfold handlePushEvent. rewrite Hvalid, Hafter. reflexivity. Qed.

Lemma handlePushEvent_deletion_skipped_witness :
  validatePushEvent push_deleted = None /\ After push_deleted = Some emptyCommit /\
  handlePushEvent env_ok (ww_of [pub_ok "bus"; pub_ok "topic"]) "d-1" push_deleted
  = ([], Ok (mkResponse StatusOK "push event has empty after commit - no event created")).
Proof.
  split; [reflexivity | split; [reflexivity |]].
  apply handlePushEvent_deletion_skipped; reflexivity.
Defined.

(** C2: the fan-out calls the publishers in configuration order and stops
    at the first one whose [Publish] fails: the log holds exactly the
    publishers up to and including the failing one, and [publish] (whose
    result the handlers return) fails with that publisher's error. *)
Theorem publish_fail_fast env ww msg w0 pre p post e
    (Hwrap : WrapMessage env msg = ROk w0)
    (Hpubs : publishers ww = app pre (p :: post))
    (Hpre : forall q, In q pre -> Publish q (stamped ww w0) = None)
    (Hp : Publish p (stamped ww w0) = Some e) :
  publish env ww msg
  = (CWrapMessage msg :: map (publish_call (stamped ww w0)) (app pre [p]), Fail e).
Proof.
  unfold publish, extern. rewrite Hwrap, bind_ok.
  fold (stamped ww w0). rewrite Hpubs.
  rewrite (publish_loop_fail pre p post _ _ e Hpre Hp). reflexivity.
Qed.

Lemma publish_fail_fast_witness :
  publish env_ok (ww_of [pub_err "bus"; pub_ok "topic"]) (MPush (mkPushMessage "d-1" "aaa" "bbb" "refs/heads/main" "r" "o"))
  = ([CWrapMessage (MPush (mkPushMessage "d-1" "aaa" "bbb" "refs/heads/main" "r" "o"));
      CPublish "bus" (mkWireMessage "id-1" "github-webhook" "prod"
                        (MPush (mkPushMessage "d-1" "aaa" "bbb" "refs/heads/main" "r" "o")))],
     Fail "boom").
Proof.
  exact (publish_fail_fast env_ok (ww_of [pub_err "bus"; pub_ok "topic"])
           (MPush (mkPushMessage "d-1" "aaa" "bbb" "refs/heads/main" "r" "o"))
           (mkWireMessage "id-1" "" "" (MPush (mkPushMessage "d-1" "aaa" "bbb" "refs/heads/main" "r" "o")))
           [] (pub_err "bus") [pub_ok "topic"] "boom"
           eq_refl eq_refl (fun q (H : In q []) => match H with end) eq_refl).
Defined.

(** C6: when the delivery-id header is absent (case-insensitive lookup
    gives ""), [HandleLambda] answers 400 "missing delivery ID" and makes
    no external call: nothing is parsed, decoded or verified. *)
Theorem HandleLambda_missing_delivery_id env ww request
    (Hmissing : header_get (header_of (Headers request)) DeliveryIDHeader = "") :
  HandleLambda env ww request
  = ([], Ok (mkResponse StatusBadRequest "missing delivery ID")).
Proof. unfold HandleLambda. cbv zeta. rewrite Hmissing. reflexivity. Qed.

Definition req_without_delivery : Request :=
  mkRequest [("content-type", "application/json");
             ("x-hub-signature-256", "sha256=00"); ("x-github-event", "push")]
            "{}" false.

Lemma HandleLambda_missing_delivery_id_witness :
  header_get (header_of (Headers req_without_delivery)) DeliveryIDHeader = "" /\
  HandleLambda env_ok (ww_of [pub_ok "bus"]) req_without_delivery
  = ([], Ok (mkResponse StatusBadRequest "missing delivery ID")).
Proof.
  split; [reflexivity |].
  apply HandleLambda_missing_delivery_id. reflexivity.
Defined.

(* ------------------------------------------------------------------ *)
(** ** Which calls the handlers make *)

(** The calls of the publishing stage. *)
Definition publish_side (c : Call) : Prop :=
  match c with CWrapMessage _ | CPublish _ _ => True | _ => False end.

Lemma trace_all_extern {A} (Q : Call -> Prop) c (r : result A) w :
  Q c -> trace_all Q (extern c r w).
Proof. intros Hc. repeat constructor. exact Hc. Qed.

Lemma publish_loop_trace pubs w output : trace_all publish_side (publish_loop pubs w output).
Proof.
  revert output. induction pubs as [|p ps IH]; intros output; cbn [publish_loop].
  - apply trace_all_ret.
  - apply trace_all_bind; [repeat constructor | intros; apply IH].
Qed.

Lemma publish_trace env ww msg : trace_all publish_side (publish env ww msg).
Proof.
  unfold publish. apply trace_all_bind; [apply trace_all_extern; exact I | intros w0].
  apply trace_all_bind; [apply publish_loop_trace | intros; apply trace_all_ret].
Qed.

Ltac trace_chain :=
  repeat first
    [ apply trace_all_ret
    | apply trace_all_deref
    | apply publish_trace
    | apply trace_all_bind; [| intro]
    | match goal with |- trace_all _ (if ?b then _ else _) => destruct b end ].

Lemma handlePushEvent_trace env ww d e :
  trace_all publish_side (handlePushEvent env ww d e).
Proof.
  unfold handlePushEvent. destruct (validatePushEvent e); trace_chain.
Qed.

Lemma handleCheckRunEvent_trace env ww d e :
  trace_all publish_side (handleCheckRunEvent env ww d e).
Proof.
  unfold handleCheckRunEvent. destruct (validateCheckRunEvent e); trace_chain.
Qed.

Lemma trace_all_weaken {A} (P Q : Call -> Prop) (m : M A) :
  (forall c, P c -> Q c) -> trace_all P m -> trace_all Q m.
Proof. intros H. apply Forall_impl. exact H. Qed.

(** The only signature [HandleLambda] ever hands to payload validation. *)
Lemma HandleLambda_validate_calls env ww request :
  trace_all
    (fun c => match c with
              | CValidatePayload _ _ s =>
                  let header := header_of (Headers request) in
                  s = (if String.eqb (header_get header SHA256SignatureHeader) ""
                       then header_get header SHA1SignatureHeader
                       else header_get header SHA256SignatureHeader)
              | _ => True end)
    (HandleLambda env ww request).
Proof.
  unfold HandleLambda. cbv zeta.
  destruct (String.eqb (header_get (header_of (Headers request)) DeliveryIDHeader) "");
    [apply trace_all_ret |].
  apply trace_all_bind; [apply trace_all_extern; exact I | intros ct].
  apply trace_all_bind;
    [destruct (IsBase64Encoded request);
       [apply trace_all_extern; exact I | apply trace_all_ret] | intros b].
  apply trace_all_bind; [apply trace_all_extern; reflexivity | intros p].
  apply trace_all_bind; [apply trace_all_extern; exact I | intros ev].
  destruct ev as [e|e|shown].
  - eapply trace_all_weaken; [| apply handlePushEvent_trace].
    intros [] H; simpl in *; tauto.
  - eapply trace_all_weaken; [| apply handleCheckRunEvent_trace].
    intros [] H; simpl in *; tauto.
  - apply trace_all_ret.
Qed.

(** C8: the signature passed to payload verification is the SHA-256
    header's value whenever that header is non-empty, and the SHA-1
    header's value only when the SHA-256 header is empty. *)
Theorem HandleLambda_signature_prefers_sha256 env ww request contentType body sig
    (Hcall : In (CValidatePayload contentType body sig) (trace (HandleLambda env ww request))) :
  let header := header_of (Headers request) in
  (header_get header SHA256SignatureHeader <> "" ->
     sig = header_get header SHA256SignatureHeader) /\
  (header_get header SHA256SignatureHeader = "" ->
     sig = header_get header SHA1SignatureHeader).
Proof.
  pose proof (HandleLambda_validate_calls env ww request) as Hall.
  unfold trace_all in Hall. rewrite Forall_forall in Hall.
  specialize (Hall _ Hcall). simpl in Hall. cbv zeta. split; intros H.
  - apply String.eqb_neq in H. now rewrite H in Hall.
  - rewrite H in Hall. exact Hall.
Qed.

Definition req_both_signatures : Request :=
  mkRequest [("content-type", "application/json");
             ("x-github-delivery", "d-1");
             ("x-hub-signature", "sha1=11");
             ("x-hub-signature-256", "sha256=22"); ("x-github-event", "push")]
            "{}" false.

Lemma HandleLambda_signature_prefers_sha256_witness :
  In (CValidatePayload "application/json" "{}" "sha256=22")
     (trace (HandleLambda env_ok (ww_of [pub_ok "bus"]) req_both_signatures)) /\
  (header_get (header_of (Headers req_both_signatures)) SHA256SignatureHeader <> "" ->
   "sha256=22" = header_get (header_of (Headers req_both_signatures)) SHA256SignatureHeader).
Proof.
  assert (Hin : In (CValidatePayload "application/json" "{}" "sha256=22")
     (trace (HandleLambda env_ok (ww_of [pub_ok "bus"]) req_both_signatures)))
    by (simpl; auto).
  split; [exact Hin |].
  exact (proj1 (HandleLambda_signature_prefers_sha256 _ _ _ _ _ _ Hin)).
Defined.

Ltac deref_some :=
  repeat (unfold deref at 1; rewrite bind_ret; cbv beta).

Lemma handlePushEvent_publishes env ww d e :
  validatePushEvent e = None -> After e <> Some emptyCommit ->
  exists msg, handlePushEvent env ww d e = publish env ww (MPush msg).
Proof.
  intros Hv Hdel.
  destruct (validatePushEvent_ok e Hv)
    as (r & b & a & rp & o & rn & on & Hr & Hb & Ha & Hrp & Ho & Hon & Hrn).
  assert (Hne : String.eqb a emptyCommit = false)
    by (apply String.eqb_neq; intros ->; exact (Hdel Ha)).
  unfold handlePushEvent. rewrite Hv, Ha, Hb, Hr, Hrp.
  deref_some. rewrite Hne. deref_some.
  rewrite Hrn, Ho. deref_some. rewrite Hon. deref_some.
  eexists. reflexivity.
Qed.

Lemma handleCheckRunEvent_publishes env ww d e :
  validateCheckRunEvent e = None ->
  exists msg, handleCheckRunEvent env ww d e = publish env ww (MCheckRun msg) /\
    Some (crm_After msg) = match check_suite_of e with
                           | Some cs => AfterSHA cs | None => None end.
Proof.
  intros Hv.
  destruct (validateCheckRunEvent_ok e Hv)
    as (act & rp & o & login & rn & cr & crName & crId & cs & head & before & after
        & Ha & Hrp & Ho & Hl & Hrn & Hcr & Hcn & Hci & Hcs & Hh & Hb & Haf).
  unfold handleCheckRunEvent. rewrite Hv.
  rewrite Ha, Hrp. deref_some. rewrite Ho. deref_some. rewrite Hl. deref_some.
  rewrite Hrn. deref_some. rewrite Hcr. deref_some. rewrite Hcn. deref_some.
  rewrite Hci. deref_some. rewrite Hcs. deref_some. rewrite Hh. deref_some.
  rewrite Hb. deref_some. rewrite Haf. deref_some.
  eexists. split; [reflexivity |].
  unfold check_suite_of. rewrite Hcr, Hcs, Haf. reflexivity.
Qed.

(** C9: for a valid event that is not a deletion push, when wrapping
    succeeds and every configured publisher succeeds, the handler answers
    200 with "HOOK OK", the message id line, and one "Published to <id>"
    line per publisher in configuration order; the publishers are called
    in that order. *)
Theorem handlers_success_report env ww deliveryID (ep : PushEvent) (ec : CheckRunEvent)
    (Hwrap : forall m, exists w0, WrapMessage env m = ROk w0)
    (Hsinks : forall q w, In q (publishers ww) -> Publish q w = None)
    (Hpush : validatePushEvent ep = None)
    (Hnotdel : After ep <> Some emptyCommit)
    (Hcheck : validateCheckRunEvent ec = None) :
  (exists m w0, WrapMessage env m = ROk w0 /\
     handlePushEvent env ww deliveryID ep
     = (CWrapMessage m :: map (publish_call (stamped ww w0)) (publishers ww),
        Ok (mkResponse StatusOK
              ("HOOK OK" ++ nl ++
               join nl (("O5 Message ID: " ++ MessageId w0)
                          :: map published_line (publishers ww)))))) /\
  (exists m w0, WrapMessage env m = ROk w0 /\
     handleCheckRunEvent env ww deliveryID ec
     = (CWrapMessage m :: map (publish_call (stamped ww w0)) (publishers ww),
        Ok (mkResponse StatusOK
              ("HOOK OK" ++ nl ++
               join nl (("O5 Message ID: " ++ MessageId w0)
                          :: map published_line (publishers ww)))))).
Proof.
  split.
  - destruct (handlePushEvent_publishes env ww deliveryID ep Hpush Hnotdel) as [msg Hm].
    destruct (Hwrap (MPush msg)) as [w0 Hw].
    exists (MPush msg), w0. split; [exact Hw |].
    rewrite Hm. apply publish_ok; [exact Hw | intros q Hq; now apply Hsinks].
  - destruct (handleCheckRunEvent_publishes env ww deliveryID ec Hcheck) as [msg [Hm _]].
    destruct (Hwrap (MCheckRun msg)) as [w0 Hw].
    exists (MCheckRun msg), w0. split; [exact Hw |].
    rewrite Hm. apply publish_ok; [exact Hw | intros q Hq; now apply Hsinks].
Qed.

Lemma handlers_success_report_witness :
  let ww := ww_of [pub_ok "bus"; pub_ok "topic"] in
  (forall m, exists w0, WrapMessage env_ok m = ROk w0) /\
  (forall q w, In q (publishers ww) -> Publish q w = None) /\
  validatePushEvent push_main = None /\ After push_main <> Some emptyCommit /\
  validateCheckRunEvent (checkrun_full (Some "bbb")) = None /\
  outcome (handlePushEvent env_ok ww "d-1" push_main)
  = Ok (mkResponse 200 ("HOOK OK" ++ nl ++ "O5 Message ID: id-1" ++ nl
                        ++ "Published to bus" ++ nl ++ "Published to topic")).
Proof.
  cbv zeta.
  assert (Hw : forall m, exists w0, WrapMessage env_ok m = ROk w0)
    by (intros m; eexists; reflexivity).
  assert (Hs : forall q w, In q (publishers (ww_of [pub_ok "bus"; pub_ok "topic"])) ->
                           Publish q w = None)
    by (intros q w [<-|[<-|[]]]; reflexivity).
  assert (Hd : After push_main <> Some emptyCommit) by discriminate.
  destruct (handlers_success_report env_ok (ww_of [pub_ok "bus"; pub_ok "topic"]) "d-1"
              push_main (checkrun_full (Some "bbb")) Hw Hs eq_refl Hd eq_refl)
    as [(m & w0 & Hm & Hp) _].
  split; [exact Hw | split; [exact Hs | split; [reflexivity | split; [exact Hd |]]]].
  split; [reflexivity |].
  unfold outcome. rewrite Hp. simpl in Hm. inversion Hm. reflexivity.
Defined.

(** C10: when [validatePushEvent] returns no error, every field the push
    message is built from is non-nil; when [validateCheckRunEvent] returns
    no error, every field the check-run message is built from is non-nil;
    so neither handler panics on a nil dereference for such events. *)
Theorem validation_guards_message_derefs (ep : PushEvent) (ec : CheckRunEvent)
    (Hpush : validatePushEvent ep = None)
    (Hcheck : validateCheckRunEvent ec = None) :
  (exists r b a rp o rn on,
     Ref ep = Some r /\ Before ep = Some b /\ After ep = Some a /\
     pe_Repo ep = Some rp /\ per_Owner rp = Some o /\ Name o = Some on /\
     per_Name rp = Some rn) /\
  (exists act rp o login rn cr crName crId cs head before after,
     Action ec = Some act /\ cre_Repo ec = Some rp /\ repo_Owner rp = Some o /\
     Login o = Some login /\ repo_Name rp = Some rn /\ cre_CheckRun ec = Some cr /\
     cr_Name cr = Some crName /\ cr_ID cr = Some crId /\
     cr_CheckSuite cr = Some cs /\ HeadBranch cs = Some head /\
     BeforeSHA cs = Some before /\ AfterSHA cs = Some after) /\
  (forall env ww d,
     no_panic (handlePushEvent env ww d ep) /\
     no_panic (handleCheckRunEvent env ww d ec)).
Proof.
  split; [exact (validatePushEvent_ok ep Hpush) |].
  split; [exact (validateCheckRunEvent_ok ec Hcheck) |].
  intros env ww d. split.
  - destruct (validatePushEvent_ok ep Hpush) as (r & b & a & _ & _ & _ & _ & _ & _ & Ha & _).
    destruct (String.eqb a emptyCommit) eqn:Hdel.
    + apply String.eqb_eq in Hdel. subst a.
      unfold handlePushEvent. rewrite Hpush, Ha. deref_some. apply no_panic_ret.
    + assert (Hne : After ep <> Some emptyCommit).
      { rewrite Ha. intros Heq. injection Heq as Heq.
        rewrite Heq, String.eqb_refl in Hdel. discriminate. }
      destruct (handlePushEvent_publishes env ww d ep Hpush Hne) as [msg ->].
      apply publish_no_panic.
  - destruct (handleCheckRunEvent_publishes env ww d ec Hcheck) as [msg [-> _]].
    apply publish_no_panic.
Qed.

Lemma validation_guards_message_derefs_witness :
  validatePushEvent push_main = None /\
  validateCheckRunEvent (checkrun_full (Some "bbb")) = None /\
  no_panic (handlePushEvent env_ok (ww_of [pub_ok "bus"]) "d-1" push_main).
Proof.
  split; [reflexivity | split; [reflexivity |]].
  exact (proj1 (proj2 (proj2 (validation_guards_message_derefs push_main
           (checkrun_full (Some "bbb")) eq_refl eq_refl)) env_ok (ww_of [pub_ok "bus"]) "d-1")).
Defined.

(** C7: [validateCheckRunEvent] reports the first absent field of the
    spec's ordered check-run table as "nil '<path>' on check_run event";
    a check-run event whose only gap is
    [check_run.check_suite.after_sha] is answered 400 with exactly that
    message; and a valid check-run event is always published, carrying its
    [after_sha] whatever its value (no deletion-sentinel skip). *)
Theorem handleCheckRunEvent_validation env ww deliveryID event :
  validateCheckRunEvent event
  = option_map (fun p => nil_field_message p "check_run")
               (first_missing checkrun_required_fields event) /\
  (first_missing checkrun_required_fields event
     = Some "check_run.check_suite.after_sha" ->
   handleCheckRunEvent env ww deliveryID event
   = ([], Ok (mkResponse StatusBadRequest
                "nil 'check_run.check_suite.after_sha' on check_run event"))) /\
  (validateCheckRunEvent event = None ->
   exists msg, handleCheckRunEvent env ww deliveryID event = publish env ww (MCheckRun msg) /\
     Some (crm_After msg) = match check_suite_of event with
                            | Some cs => AfterSHA cs | None => None end).
Proof.
  split; [apply validateCheckRunEvent_table |].
  split.
  - intros Hmiss. unfold handleCheckRunEvent.
    rewrite validateCheckRunEvent_table, Hmiss. reflexivity.
  - apply handleCheckRunEvent_publishes.
Qed.

Definition checkrun_deleted : CheckRunEvent := checkrun_full (Some emptyCommit).

Lemma handleCheckRunEvent_validation_witness :
  first_missing checkrun_required_fields (checkrun_full None)
    = Some "check_run.check_suite.after_sha" /\
  handleCheckRunEvent env_ok (ww_of [pub_ok "bus"]) "d-1" (checkrun_full None)
    = ([], Ok (mkResponse StatusBadRequest
                 "nil 'check_run.check_suite.after_sha' on check_run event")) /\
  validateCheckRunEvent checkrun_deleted = None /\
  (exists msg, handleCheckRunEvent env_ok (ww_of [pub_ok "bus"]) "d-1" checkrun_deleted
               = publish env_ok (ww_of [pub_ok "bus"]) (MCheckRun msg) /\
     Some (crm_After msg) = Some emptyCommit).
Proof.
  split; [reflexivity |].
  split; [exact (proj1 (proj2 (handleCheckRunEvent_validation env_ok (ww_of [pub_ok "bus"])
                                  "d-1" (checkrun_full None))) eq_refl) |].
  split; [reflexivity |].
  exact (proj2 (proj2 (handleCheckRunEvent_validation env_ok (ww_of [pub_ok "bus"])
                          "d-1" checkrun_deleted)) eq_refl).
Defined.

Definition push_without_repo : PushEvent :=
  mkPushEvent (Some "refs/heads/main") (Some "aaa") (Some "bbb") None.

(** C3: the push checks run in the spec's order (see
    [validatePushEvent_table]), but the four repository checks are done by
    [validateRepo1], copied from the check-run [validateRepo] with its
    messages: a push event with [ref] and no [repo] is rejected with
    "nil 'repo' on check_run event", not "nil 'repo' on push event". *)
Theorem validatePushEvent_repo_message :
  first_missing push_required_fields push_without_repo = Some "repo" /\
  validatePushEvent push_without_repo = Some "nil 'repo' on check_run event" /\
  validatePushEvent push_without_repo <> Some (nil_field_message "repo" "push") /\
  outcome (handlePushEvent env_ok (ww_of [pub_ok "bus"]) "d-1" push_without_repo)
  = Ok (mkResponse StatusBadRequest "nil 'repo' on check_run event").
Proof.
  split; [reflexivity | split; [reflexivity | split; [discriminate | reflexivity]]].
Qed.

(** An environment whose HMAC check accepts only the signature
    "sha256=good". *)
Definition env_hmac : Env :=
  mkEnv (fun v => if String.eqb v "" then RErr "mime: no media type" else ROk v)
        (fun s => ROk s)
        (fun _ body sig _ =>
           if String.eqb sig "sha256=good" then ROk body
           else RErr "payload signature check failed")
        (fun _ _ => RErr "unknown X-Github-Event")
        (fun m => ROk (mkWireMessage "id-1" "" "" m)).

Definition req_bad_signature : Request :=
  mkRequest [("content-type", "application/json");
             ("x-github-delivery", "d-1");
             ("x-hub-signature-256", "sha256=bad"); ("x-github-event", "push")]
            "{}" false.

(** C5 (counterexample): a request whose signature does not match is not
    answered with a 400 response: [HandleLambda] returns a Go error. *)
Lemma HandleLambda_bad_signature_is_error :
  outcome (HandleLambda env_hmac (ww_of [pub_ok "bus"]) req_bad_signature)
    = Fail "validating payload: payload signature check failed" /\
  (forall r, outcome (HandleLambda env_hmac (ww_of [pub_ok "bus"]) req_bad_signature) <> Ok r).
Proof. split; [reflexivity | intros r; discriminate]. Qed.

(** C5 (amended): once a delivery id is present, a failure of media-type
    parsing, of base64 decoding of a declared-base64 body, of signature
    verification or of webhook parsing makes [HandleLambda] return a Go
    error carrying the wrapped detail, with no response value. *)
Theorem HandleLambda_decode_failures_are_errors env ww request e :
  let header := header_of (Headers request) in
  let ct := header_get header "Content-Type" in
  let sig := if String.eqb (header_get header SHA256SignatureHeader) ""
             then header_get header SHA1SignatureHeader
             else header_get header SHA256SignatureHeader in
  header_get header DeliveryIDHeader <> "" ->
  (ParseMediaType env ct = RErr e ->
     outcome (HandleLambda env ww request)
     = Fail ("parse media type from '" ++ ct ++ "': " ++ e)) /\
  (forall c, ParseMediaType env ct = ROk c ->
     IsBase64Encoded request = true -> DecodeString env (Body request) = RErr e ->
     outcome (HandleLambda env ww request) = Fail ("decoding body: " ++ e)) /\
  (forall c b, ParseMediaType env ct = ROk c ->
     (if IsBase64Encoded request then DecodeString env (Body request)
      else ROk (Body request)) = ROk b ->
     ValidatePayloadFromBody env c b sig (secretToken ww) = RErr e ->
     outcome (HandleLambda env ww request) = Fail ("validating payload: " ++ e)) /\
  (forall c b p, ParseMediaType env ct = ROk c ->
     (if IsBase64Encoded request then DecodeString env (Body request)
      else ROk (Body request)) = ROk b ->
     ValidatePayloadFromBody env c b sig (secretToken ww) = ROk p ->
     ParseWebHook env (header_get header "X-GitHub-Event") p = RErr e ->
     outcome (HandleLambda env ww request) = Fail ("parsing webhook: " ++ e)).
Proof.
  cbv zeta. intros Hd.
  apply String.eqb_neq in Hd.
  unfold HandleLambda. cbv zeta. rewrite Hd.
  split; [intros Hm; rewrite Hm, extern_RErr, outcome_bind_fail; reflexivity |].
  split; [intros c Hm Hb64 Hdec; rewrite Hm, extern_ROk, outcome_bind_ok, Hb64, Hdec;
          cbv beta; rewrite extern_RErr, outcome_bind_fail; reflexivity |].
  split.
  - intros c b Hm Hbody Hv. rewrite Hm, extern_ROk, outcome_bind_ok. cbv beta.
    rewrite outcome_bind_ok_if with (b := b) by exact Hbody.
    rewrite Hv, extern_RErr, outcome_bind_fail. reflexivity.
  - intros c b p Hm Hbody Hv Hp. rewrite Hm, extern_ROk, outcome_bind_ok. cbv beta.
    rewrite outcome_bind_ok_if with (b := b) by exact Hbody.
    rewrite Hv, extern_ROk, outcome_bind_ok. cbv beta.
    rewrite Hp, extern_RErr, outcome_bind_fail. reflexivity.
Qed.

Lemma HandleLambda_decode_failures_are_errors_witness :
  header_get (header_of (Headers req_bad_signature)) DeliveryIDHeader <> "" /\
  outcome (HandleLambda env_hmac (ww_of [pub_ok "bus"]) req_bad_signature)
    = Fail ("validating payload: " ++ "payload signature check failed").
Proof.
  assert (Hd : header_get (header_of (Headers req_bad_signature)) DeliveryIDHeader <> "")
    by discriminate.
  split; [exact Hd |].
  exact (proj1 (proj2 (proj2 (HandleLambda_decode_failures_are_errors env_hmac
           (ww_of [pub_ok "bus"]) req_bad_signature "payload signature check failed" Hd)))
           "application/json" "{}" eq_refl eq_refl eq_refl).
Defined.

(* ------------------------------------------------------------------ *)
(** * Further properties of the handler *)

Lemma trace_bind_ok {A B} t (a : A) (f : A -> M B) :
  trace (bind (t, Ok a) f) = app t (trace (f a)).
Proof. unfold bind, trace. now destruct (f a). Qed.

Lemma trace_bind_fail {A B} t e (f : A -> M B) :
  trace (bind (t, Fail e) f) = t.
Proof. reflexivity. Qed.

(** Every value a computation returns (with a nil error) satisfies [P]. *)
Definition ok_all {A} (P : A -> Prop) (m : M A) : Prop :=
  forall a, outcome m = Ok a -> P a.

Lemma ok_all_bind {A B} (P : B -> Prop) (m : M A) (f : A -> M B) :
  (forall a, ok_all P (f a)) -> ok_all P (bind m f).
Proof.
  unfold ok_all. intros Hf r.
  destruct m as [t [a| e |]]; [| discriminate | discriminate].
  rewrite outcome_bind_ok. apply Hf.
Qed.

Lemma ok_all_ret {A} (P : A -> Prop) a : P a -> ok_all P (ret a).
Proof. intros Ha r Hr. injection Hr as <-. exact Ha. Qed.

Ltac ok_chain :=
  repeat first
    [ apply ok_all_ret
    | apply ok_all_bind; intro
    | match goal with |- ok_all _ (if ?b then _ else _) => destruct b end
    | match goal with |- ok_all _ (match ?x with _ => _ end) => destruct x end ].

(** The status codes the handlers write. *)
Definition status_200_or_400 (r : Response) : Prop :=
  StatusCode r = StatusOK \/ StatusCode r = StatusBadRequest.

Lemma publish_status env ww msg : ok_all status_200_or_400 (publish env ww msg).
Proof. unfold publish. ok_chain. now left. Qed.

Lemma handlePushEvent_status env ww d e :
  ok_all status_200_or_400 (handlePushEvent env ww d e).
Proof.
  unfold handlePushEvent. destruct (validatePushEvent e); [apply ok_all_ret; now right |].
  apply ok_all_bind; intros a. destruct (String.eqb a emptyCommit).
  - apply ok_all_ret. now left.
  - repeat (apply ok_all_bind; intro). apply ok_all_ret. now left.
Qed.

Lemma handleCheckRunEvent_status env ww d e :
  ok_all status_200_or_400 (handleCheckRunEvent env ww d e).
Proof.
  unfold handleCheckRunEvent. destruct (validateCheckRunEvent e); [apply ok_all_ret; now right |].
  repeat (apply ok_all_bind; intro). apply ok_all_ret. now left.
Qed.

(** X: every response [HandleLambda] returns (with a nil error) has status
    200 or 400; any other outcome is a Go error. *)
Theorem HandleLambda_status_codes env ww request r
    (Hr : outcome (HandleLambda env ww request) = Ok r) :
  StatusCode r = StatusOK \/ StatusCode r = StatusBadRequest.
Proof.
  revert r Hr. fold (ok_all status_200_or_400 (HandleLambda env ww request)).
  unfold HandleLambda. cbv zeta.
  destruct (String.eqb (header_get (header_of (Headers request)) DeliveryIDHeader) "");
    [apply ok_all_ret; now right |].
  repeat (apply ok_all_bind; intro).
  match goal with |- ok_all _ (match ?x with _ => _ end) => destruct x end.
  - apply handlePushEvent_status.
  - apply handleCheckRunEvent_status.
  - apply ok_all_ret. now right.
Qed.

Lemma HandleLambda_status_codes_witness :
  outcome (HandleLambda env_hmac (ww_of [pub_ok "bus"]) req_without_delivery)
    = Ok (mkResponse StatusBadRequest "missing delivery ID") /\
  (StatusCode (mkResponse StatusBadRequest "missing delivery ID") = StatusOK \/
   StatusCode (mkResponse StatusBadRequest "missing delivery ID") = StatusBadRequest).
Proof.
  assert (H : outcome (HandleLambda env_hmac (ww_of [pub_ok "bus"]) req_without_delivery)
              = Ok (mkResponse StatusBadRequest "missing delivery ID")) by reflexivity.
  split; [exact H | exact (HandleLambda_status_codes _ _ _ _ H)].
Defined.

Lemma outcome_bind_any_trace {A B} t t' (o : Outcome A) (f : A -> M B) :
  outcome (bind (t, o) f) = outcome (bind (t', o) f).
Proof. unfold bind, outcome. destruct o; try reflexivity. now destruct (f a). Qed.

Lemma outcome_bind_bind_ok {A B C} t (a : A) (g : A -> M B) (f : B -> M C) :
  outcome (bind (bind (t, Ok a) g) f) = outcome (bind (g a) f).
Proof.
  unfold bind at 2. destruct (g a) as [t' o].
  apply outcome_bind_any_trace.
Qed.

Lemma publish_loop_ok_inv {B} pubs w output (f : list string -> M B) r :
  outcome (bind (publish_loop pubs w output) f) = Ok r ->
  forall q, In q pubs -> Publish q w = None.
Proof.
  revert output. induction pubs as [|p ps IH]; intros output Hok q Hq; [destruct Hq |].
  cbn [publish_loop] in Hok.
  destruct (Publish p w) as [e|] eqn:Hp; [discriminate |].
  destruct Hq as [<- | Hq]; [exact Hp |].
  rewrite outcome_bind_bind_ok in Hok.
  exact (IH _ Hok q Hq).
Qed.

(** X: a successful [publish] has called every configured publisher,
    exactly once each and in configuration order, with the wrapped message
    stamped with the worker's source, and answers 200. *)
Theorem publish_success_called_all env ww msg r
    (Hok : outcome (publish env ww msg) = Ok r) :
  StatusCode r = StatusOK /\
  exists w0, WrapMessage env msg = ROk w0 /\
    trace (publish env ww msg)
    = CWrapMessage msg :: map (publish_call (stamped ww w0)) (publishers ww).
Proof.
  unfold publish in *. destruct (WrapMessage env msg) as [w0|e] eqn:Hw;
    rewrite ?extern_ROk, ?extern_RErr in *; [| discriminate].
  rewrite outcome_bind_ok in Hok. rewrite trace_bind_ok.
  fold (stamped ww w0) in *.
  pose proof (publish_loop_ok_inv _ _ _ _ _ Hok) as Hall.
  rewrite publish_loop_ok in * by exact Hall.
  rewrite outcome_bind_ok in Hok. cbn in Hok. injection Hok as <-.
  split; [reflexivity |]. exists w0. split; [reflexivity |].
  rewrite trace_bind_ok. cbn [trace ret fst]. now rewrite !app_nil_r.
Qed.

Definition push_msg_main : Message :=
  MPush (mkPushMessage "d-1" "aaa" "bbb" "refs/heads/main" "r" "o").

Lemma publish_success_called_all_witness :
  outcome (publish env_ok (ww_of [pub_ok "bus"; pub_ok "topic"]) push_msg_main)
    = Ok (mkResponse StatusOK ("HOOK OK" ++ nl ++ "O5 Message ID: id-1" ++ nl
                               ++ "Published to bus" ++ nl ++ "Published to topic")) /\
  StatusCode (mkResponse StatusOK ("HOOK OK" ++ nl ++ "O5 Message ID: id-1" ++ nl
                               ++ "Published to bus" ++ nl ++ "Published to topic"))
    = StatusOK.
Proof.
  assert (H : outcome (publish env_ok (ww_of [pub_ok "bus"; pub_ok "topic"]) push_msg_main)
    = Ok (mkResponse StatusOK ("HOOK OK" ++ nl ++ "O5 Message ID: id-1" ++ nl
                               ++ "Published to bus" ++ nl ++ "Published to topic")))
    by reflexivity.
  split; [exact H | exact (proj1 (publish_success_called_all _ _ _ _ H))].
Defined.

(** X: when [o5msg.WrapMessage] fails, [publish] returns its error as is
    and calls no publisher. *)
Theorem publish_wrap_failure env ww msg e
    (Hw : WrapMessage env msg = RErr e) :
  publish env ww msg = ([CWrapMessage msg], Fail e).
Proof. unfold publish. rewrite Hw, extern_RErr. reflexivity. Qed.

Definition env_wrap_err : Env :=
  mkEnv (fun v => ROk v) (fun s => ROk s) (fun _ body _ _ => ROk body)
        (fun _ _ => RErr "unknown X-Github-Event") (fun _ => RErr "invalid message").

Lemma publish_wrap_failure_witness :
  WrapMessage env_wrap_err push_msg_main = RErr "invalid message" /\
  publish env_wrap_err (ww_of [pub_ok "bus"]) push_msg_main
    = ([CWrapMessage push_msg_main], Fail "invalid message").
Proof.
  split; [reflexivity |]. apply publish_wrap_failure. reflexivity.
Defined.

(** X: every wire message [publish] hands to a publisher carries the
    worker's [SourceApp] and [SourceEnv] and the id and payload that
    [o5msg.WrapMessage] produced. *)
Theorem publish_stamps_source env ww msg w0 id w
    (Hw : WrapMessage env msg = ROk w0)
    (Hin : In (CPublish id w) (trace (publish env ww msg))) :
  SourceApp w = cfg_SourceApp (Source ww) /\ SourceEnv w = cfg_SourceEnv (Source ww) /\
  MessageId w = MessageId w0 /\ Payload w = Payload w0.
Proof.
  assert (Hall : trace_all (fun c => match c with
                                     | CPublish _ w' => w' = stamped ww w0
                                     | _ => True end) (publish env ww msg)).
  { unfold publish. rewrite Hw, extern_ROk. unfold trace_all. rewrite trace_bind_ok.
    apply Forall_cons; [exact I |]. fold (stamped ww w0).
    apply trace_all_bind; [| intros; apply trace_all_ret].
    generalize ["O5 Message ID: " ++ MessageId (stamped ww w0)].
    induction (publishers ww) as [|p ps IH]; intros output; cbn [publish_loop].
    - apply trace_all_ret.
    - apply trace_all_bind; [repeat constructor | intros; apply IH]. }
  unfold trace_all in Hall. rewrite Forall_forall in Hall.
  specialize (Hall _ Hin). simpl in Hall. subst w. repeat split.
Qed.

Lemma publish_stamps_source_witness :
  In (CPublish "bus" (mkWireMessage "id-1" "github-webhook" "prod" push_msg_main))
     (trace (publish env_ok (ww_of [pub_ok "bus"]) push_msg_main)) /\
  SourceApp (mkWireMessage "id-1" "github-webhook" "prod" push_msg_main) = "github-webhook".
Proof.
  assert (Hin : In (CPublish "bus" (mkWireMessage "id-1" "github-webhook" "prod" push_msg_main))
     (trace (publish env_ok (ww_of [pub_ok "bus"]) push_msg_main))) by (simpl; auto).
  split; [exact Hin |].
  exact (proj1 (publish_stamps_source env_ok (ww_of [pub_ok "bus"]) push_msg_main
                  (mkWireMessage "id-1" "" "" push_msg_main) _ _ eq_refl Hin)).
Defined.

(** X: a valid push event that is not a deletion is published as the
    [PushMessage] built from its fields and the delivery id. *)
Theorem handlePushEvent_message env ww deliveryID event r b a rp o rn on
    (Hr : Ref event = Some r) (Hb : Before event = Some b) (Ha : After event = Some a)
    (Hrp : pe_Repo event = Some rp) (Ho : per_Owner rp = Some o)
    (Hon : Name o = Some on) (Hrn : per_Name rp = Some rn)
    (Hdel : a <> emptyCommit) :
  handlePushEvent env ww deliveryID event
  = publish env ww (MPush (mkPushMessage deliveryID b a r rn on)).
Proof.
  assert (Hv : validatePushEvent event = None)
    by (unfold validatePushEvent, validateRepo1; now rewrite Hr, Hrp, Ho, Hon, Hrn, Ha, Hb).
  assert (Hne : String.eqb a emptyCommit = false) by now apply String.eqb_neq.
  unfold handlePushEvent. rewrite Hv, Ha, Hb, Hr, Hrp.
  deref_some. rewrite Hne. deref_some.
  rewrite Hrn, Ho. deref_some. rewrite Hon. deref_some. reflexivity.
Qed.

Lemma handlePushEvent_message_witness :
  handlePushEvent env_ok (ww_of [pub_ok "bus"]) "d-1" push_main
  = publish env_ok (ww_of [pub_ok "bus"]) push_msg_main.
Proof.
  apply (handlePushEvent_message env_ok (ww_of [pub_ok "bus"]) "d-1" push_main
           "refs/heads/main" "aaa" "bbb" (mkPushEventRepository (Some (mkUser None (Some "o"))) (Some "r"))
           (mkUser None (Some "o")) "r" "o"); try reflexivity.
  discriminate.
Defined.

(** X: a valid check-run event is published as the [CheckRunMessage] built
    from its fields, with [Ref] = "refs/heads/" ++ head branch. *)
Theorem handleCheckRunEvent_message env ww deliveryID event
    act rp o login rn cr crName crId cs head before after
    (Ha : Action event = Some act) (Hrp : cre_Repo event = Some rp)
    (Ho : repo_Owner rp = Some o) (Hl : Login o = Some login)
    (Hrn : repo_Name rp = Some rn) (Hcr : cre_CheckRun event = Some cr)
    (Hcn : cr_Name cr = Some crName) (Hci : cr_ID cr = Some crId)
    (Hcs : cr_CheckSuite cr = Some cs) (Hh : HeadBranch cs = Some head)
    (Hb : BeforeSHA cs = Some before) (Haf : AfterSHA cs = Some after) :
  handleCheckRunEvent env ww deliveryID event
  = publish env ww (MCheckRun (mkCheckRunMessage deliveryID act login rn crName crId
                                 ("refs/heads/" ++ head) before after)).
Proof.
  assert (Hv : validateCheckRunEvent event = None)
    by (unfold validateCheckRunEvent, validateRepo;
        now rewrite Ha, Hrp, Ho, Hl, Hrn, Hcr, Hcn, Hci, Hcs, Hh, Hb, Haf).
  unfold handleCheckRunEvent. rewrite Hv.
  rewrite Ha, Hrp. deref_some. rewrite Ho. deref_some. rewrite Hl. deref_some.
  rewrite Hrn. deref_some. rewrite Hcr. deref_some. rewrite Hcn. deref_some.
  rewrite Hci. deref_some. rewrite Hcs. deref_some. rewrite Hh. deref_some.
  rewrite Hb. deref_some. rewrite Haf. deref_some. reflexivity.
Qed.

Lemma handleCheckRunEvent_message_witness :
  handleCheckRunEvent env_ok (ww_of [pub_ok "bus"]) "d-1" (checkrun_full (Some "bbb"))
  = publish env_ok (ww_of [pub_ok "bus"])
      (MCheckRun (mkCheckRunMessage "d-1" "completed" "o" "r" "build" 7
                    "refs/heads/main" "aaa" "bbb")).
Proof.
  exact (handleCheckRunEvent_message env_ok (ww_of [pub_ok "bus"]) "d-1" (checkrun_full (Some "bbb"))
           _ _ _ _ _ _ _ _ _ _ _ _ eq_refl eq_refl eq_refl eq_refl eq_refl eq_refl
           eq_refl eq_refl eq_refl eq_refl eq_refl eq_refl).
Defined.

(** How [HandleLambda] runs once every library step before the dispatch
    succeeds: the log holds those steps, then the handler's own calls. *)
Lemma HandleLambda_dispatch env ww request c b p ev :
  let header := header_of (Headers request) in
  let ct := header_get header "Content-Type" in
  let sig := if String.eqb (header_get header SHA256SignatureHeader) ""
             then header_get header SHA1SignatureHeader
             else header_get header SHA256SignatureHeader in
  let ty := header_get header "X-GitHub-Event" in
  let d := header_get header DeliveryIDHeader in
  d <> "" ->
  ParseMediaType env ct = ROk c ->
  (if IsBase64Encoded request then DecodeString env (Body request)
   else ROk (Body request)) = ROk b ->
  ValidatePayloadFromBody env c b sig (secretToken ww) = ROk p ->
  ParseWebHook env ty p = ROk ev ->
  let m := match ev with
           | EvPush e => handlePushEvent env ww d e
           | EvCheckRun e => handleCheckRunEvent env ww d e
           | EvOther shown => ret (mkResponse StatusBadRequest ("unhandled event type " ++ shown))
           end in
  HandleLambda env ww request
  = (CParseMediaType ct ::
       app (if IsBase64Encoded request then [CDecodeString (Body request)] else [])
           (CValidatePayload c b sig :: CParseWebHook ty p :: trace m),
     outcome m).
Proof.
  cbv zeta. intros Hd Hm Hb Hv Hp.
  apply String.eqb_neq in Hd.
  unfold HandleLambda. cbv zeta. rewrite Hd, Hm, extern_ROk, bind_ok.
  destruct (IsBase64Encoded request).
  - rewrite Hb, extern_ROk, bind_ok. cbn [trace outcome fst snd].
    rewrite Hv, extern_ROk, bind_ok. cbn [trace outcome fst snd].
    rewrite Hp, extern_ROk, bind_ok. reflexivity.
  - injection Hb as <-. rewrite bind_ret.
    rewrite Hv, extern_ROk, bind_ok. cbn [trace outcome fst snd].
    rewrite Hp, extern_ROk, bind_ok. reflexivity.
Qed.





(** X: [HandleLambda] hands a message to a publisher only for a request
    with a delivery id whose media type parsed, whose signature check
    ([github.ValidatePayloadFromBody] with the worker's secret) succeeded
    and was logged, and whose verified payload parsed as a webhook. *)
Theorem HandleLambda_publishes_only_verified env ww request id w
    (Hin : In (CPublish id w) (trace (HandleLambda env ww request))) :
  let header := header_of (Headers request) in
  let sig := if String.eqb (header_get header SHA256SignatureHeader) ""
             then header_get header SHA1SignatureHeader
             else header_get header SHA256SignatureHeader in
  header_get header DeliveryIDHeader <> "" /\
  exists c b p ev,
    ParseMediaType env (header_get header "Content-Type") = ROk c /\
    ValidatePayloadFromBody env c b sig (secretToken ww) = ROk p /\
    In (CValidatePayload c b sig) (trace (HandleLambda env ww request)) /\
    ParseWebHook env (header_get header "X-GitHub-Event") p = ROk ev.
Proof.
  cbv zeta.
  destruct (String.eqb (header_get (header_of (Headers request)) DeliveryIDHeader) "")
    eqn:Hd.
  { exfalso. unfold HandleLambda in Hin. cbv zeta in Hin. rewrite Hd in Hin.
    destruct Hin. }
  assert (Hd' : header_get (header_of (Headers request)) DeliveryIDHeader <> "")
    by now apply String.eqb_neq.
  split; [exact Hd' |].
  destruct (ParseMediaType env (header_get (header_of (Headers request)) "Content-Type"))
    as [c|e] eqn:Hm.
  2: { exfalso. unfold HandleLambda in Hin. cbv zeta in Hin.
       rewrite Hd, Hm, extern_RErr, trace_bind_fail in Hin. simpl in Hin.
       intuition discriminate. }
  destruct (if IsBase64Encoded request then DecodeString env (Body request)
            else ROk (Body request)) as [b|e] eqn:Hb.
  2: { exfalso. unfold HandleLambda in Hin. cbv zeta in Hin.
       rewrite Hd, Hm, extern_ROk, trace_bind_ok in Hin.
       destruct (IsBase64Encoded request); [| discriminate].
       rewrite Hb, extern_RErr, trace_bind_fail in Hin. simpl in Hin.
       intuition discriminate. }
  destruct (ValidatePayloadFromBody env c b
              (if String.eqb (header_get (header_of (Headers request)) SHA256SignatureHeader) ""
               then header_get (header_of (Headers request)) SHA1SignatureHeader
               else header_get (header_of (Headers request)) SHA256SignatureHeader)
              (secretToken ww)) as [p|e] eqn:Hv.
  2: { exfalso. unfold HandleLambda in Hin. cbv zeta in Hin.
       rewrite Hd, Hm, extern_ROk, trace_bind_ok in Hin.
       destruct (IsBase64Encoded request).
       - rewrite Hb, extern_ROk, trace_bind_ok in Hin.
         rewrite Hv, extern_RErr, trace_bind_fail in Hin. simpl in Hin.
         intuition discriminate.
       - injection Hb as <-. rewrite bind_ret in Hin.
         rewrite Hv, extern_RErr, trace_bind_fail in Hin. simpl in Hin.
         intuition discriminate. }
  destruct (ParseWebHook env (header_get (header_of (Headers request)) "X-GitHub-Event") p)
    as [ev|e] eqn:Hp.
  2: { exfalso. unfold HandleLambda in Hin. cbv zeta in Hin.
       rewrite Hd, Hm, extern_ROk, trace_bind_ok in Hin.
       destruct (IsBase64Encoded request).
       - rewrite Hb, extern_ROk, trace_bind_ok in Hin.
         rewrite Hv, extern_ROk, trace_bind_ok in Hin.
         rewrite Hp, extern_RErr, trace_bind_fail in Hin. simpl in Hin.
         intuition discriminate.
       - injection Hb as <-. rewrite bind_ret in Hin.
         rewrite Hv, extern_ROk, trace_bind_ok in Hin.
         rewrite Hp, extern_RErr, trace_bind_fail in Hin. simpl in Hin.
         intuition discriminate. }
  exists c, b, p, ev.
  split; [first [exact Hm | reflexivity] | split; [first [exact Hv | reflexivity] |
    split; [| first [exact Hp | reflexivity]]]].
  rewrite (HandleLambda_dispatch env ww request c b p ev Hd' Hm Hb Hv Hp).
  cbn [trace fst]. right. apply in_or_app. right. left. reflexivity.
Qed.

Definition env_push : Env :=
  mkEnv (fun v => ROk v) (fun s => ROk s) (fun _ body _ _ => ROk body)
        (fun _ _ => ROk (EvPush push_main))
        (fun m => ROk (mkWireMessage "id-1" "" "" m)).

Lemma HandleLambda_publishes_only_verified_witness :
  In (CPublish "bus" (mkWireMessage "id-1" "github-webhook" "prod"
                        (MPush (mkPushMessage "d-1" "aaa" "bbb" "refs/heads/main" "r" "o"))))
     (trace (HandleLambda env_push (ww_of [pub_ok "bus"]) req_both_signatures)) /\
  header_get (header_of (Headers req_both_signatures)) DeliveryIDHeader <> "".
Proof.
  assert (Hin : In (CPublish "bus" (mkWireMessage "id-1" "github-webhook" "prod"
                        (MPush (mkPushMessage "d-1" "aaa" "bbb" "refs/heads/main" "r" "o"))))
     (trace (HandleLambda env_push (ww_of [pub_ok "bus"]) req_both_signatures)))
    by (vm_compute; auto 10).
  split; [exact Hin | exact (proj1 (HandleLambda_publishes_only_verified _ _ _ _ _ Hin))].
Defined.

(* ------------------------------------------------------------------ *)
(** ** Header lookup *)
















(* ------------------------------------------------------------------ *)
(** ** The earlier push-only handler ([github/webhook.go]) *)

Module Legacy.

(** [validatePushEvent] of [github/webhook.go] (the same function appears
    in the unnamed earlier copies of the handler). *)
Definition validatePushEvent (event : PushEvent) : option error :=
  match Ref event with
  | None => Some "nil 'ref' on push event"
  | Some _ =>
      match pe_Repo event with
      | None => Some "nil 'repo' on push event"
      | Some r =>
          match per_Owner r with
          | None => Some "nil 'repo.owner' on push event"
          | Some o =>
              match Name o with
              | None => Some "nil 'repo.owner.name' on push event"
              | Some _ =>
                  match per_Name r with
                  | None => Some "nil 'repo.name' on push event"
                  | Some _ =>
                      match After event with
                      | None => Some "nil 'after' on push event"
                      | Some _ =>
                          match Before event with
                          | None => Some "nil 'before' on push event"
                          | Some _ => None
                          end
                      end
                  end
              end
          end
      end
  end.

(** X: the earlier [validatePushEvent] reports the first absent field of
    the ordered push table as "nil '<path>' on push event", for every
    field including the repository ones. *)
Theorem legacy_validatePushEvent_table e :
  validatePushEvent e
  = option_map (fun p => nil_field_message p "push") (first_missing push_required_fields e).
Proof.
  destruct e as [[r|] [b|] [a|] [[[[l [on|]]|] [rn|]]|]]; reflexivity.
Qed.

End Legacy.

(* ------------------------------------------------------------------ *)
(** ** Start-up ([cmd/lambda/lambda.go]) *)

(** What [do] reads from its surroundings: the process environment and the
    AWS calls ([config.LoadDefaultConfig], [GetSecretValue] with its
    [SecretString] pointer, [json.Unmarshal] into [Secret], giving its
    [githubWebhookSecret] field, and [sceb.NewEventBridgePublisher]). *)
Record Runtime := mkRuntime {
  Getenv : string -> string;
  LoadDefaultConfig : result unit;
  GetSecretValue : string -> result (option string);
  UnmarshalSecret : string -> result string;
  NewEventBridgePublisher : string -> result Publisher
}.

Definition NewWebhookWorker (secretToken : string) (source : SourceConfig)
    (publishers : list Publisher) : WebhookWorker :=
  mkWebhookWorker publishers secretToken source.

(** [do]: [Ok ww] is the worker whose [HandleLambda] is passed to
    [lambda.Start]; [Fail] is the error [do] returns; [Panic] the nil
    dereference of [SecretString]. *)
Definition do_start (rt : Runtime) : Outcome WebhookWorker :=
  let sourceApp := Getenv rt "SOURCE_APP" in
  let sourceEnv := Getenv rt "SOURCE_ENV" in
  let sourceConfig :=
    mkSourceConfig (if String.eqb sourceApp "" then "github-webhook" else sourceApp)
                   sourceEnv in
  if String.eqb sourceEnv "" then Fail "SOURCE_ENV is required" else
  match LoadDefaultConfig rt with
  | RErr err => Fail ("failed to load configuration: " ++ err)
  | ROk _ =>
      let githubSecret := Getenv rt "SECRET_ID" in
      if String.eqb githubSecret "" then Fail "SECRET_ID is required" else
      match GetSecretValue rt githubSecret with
      | RErr err => Fail err
      | ROk None => Panic
      | ROk (Some secretString) =>
          match UnmarshalSecret rt secretString with
          | RErr err => Fail ("decoding secret: " ++ err)
          | ROk githubWebhookSecret =>
              let targetEventBusARN := Getenv rt "TARGET_EVENT_BUS_ARN" in
              if String.eqb targetEventBusARN "" then
                Fail "TARGET_EVENT_BUS_ARN is required"
              else
                match NewEventBridgePublisher rt targetEventBusARN with
                | RErr err => Fail ("creating eventbridge publisher: " ++ err)
                | ROk eventBridgePublisher =>
                    Ok (NewWebhookWorker githubWebhookSecret sourceConfig
                          [eventBridgePublisher])
                end
          end
      end
  end.

(** X: without [SOURCE_ENV], start-up fails with "SOURCE_ENV is required"
    whatever the AWS calls would return: none of them is consulted. *)
Theorem do_start_requires_source_env rt
    (Henv : Getenv rt "SOURCE_ENV" = "") :
  do_start rt = Fail "SOURCE_ENV is required".
Proof. unfold do_start. cbv zeta. now rewrite Henv. Qed.

Definition rt_ok (env : string -> string) : Runtime :=
  mkRuntime env (ROk tt) (fun _ => ROk (Some "{}")) (fun _ => ROk "s3cret")
            (fun arn => ROk (pub_ok arn)).

Lemma do_start_requires_source_env_witness :
  do_start (rt_ok (fun _ => "")) = Fail "SOURCE_ENV is required".
Proof. apply do_start_requires_source_env. reflexivity. Defined.

(** X: a worker that start-up hands to [lambda.Start] has exactly one
    publisher (the EventBridge one, for a non-empty bus ARN), the webhook
    secret read from the secret store, [SourceEnv] = a non-empty
    [SOURCE_ENV], and [SourceApp] = [SOURCE_APP], or "github-webhook" when
    that is empty. *)
Theorem do_start_worker rt ww
    (Hstart : do_start rt = Ok ww) :
  Getenv rt "SOURCE_ENV" <> "" /\
  cfg_SourceEnv (Source ww) = Getenv rt "SOURCE_ENV" /\
  cfg_SourceApp (Source ww)
    = (if String.eqb (Getenv rt "SOURCE_APP") "" then "github-webhook"
       else Getenv rt "SOURCE_APP") /\
  Getenv rt "TARGET_EVENT_BUS_ARN" <> "" /\
  (exists p, NewEventBridgePublisher rt (Getenv rt "TARGET_EVENT_BUS_ARN") = ROk p /\
             publishers ww = [p]) /\
  (exists s, GetSecretValue rt (Getenv rt "SECRET_ID") = ROk (Some s) /\
             UnmarshalSecret rt s = ROk (secretToken ww)).
Proof.
  unfold do_start in Hstart. cbv zeta in Hstart.
  destruct (String.eqb (Getenv rt "SOURCE_ENV") "") eqn:He; [discriminate |].
  destruct (LoadDefaultConfig rt); [| discriminate].
  destruct (String.eqb (Getenv rt "SECRET_ID") ""); [discriminate |].
  destruct (GetSecretValue rt (Getenv rt "SECRET_ID")) as [[s|]|] eqn:Hg; try discriminate.
  destruct (UnmarshalSecret rt s) as [sec|] eqn:Hu; [| discriminate].
  destruct (String.eqb (Getenv rt "TARGET_EVENT_BUS_ARN") "") eqn:Hb; [discriminate |].
  destruct (NewEventBridgePublisher rt (Getenv rt "TARGET_EVENT_BUS_ARN")) as [p|] eqn:Hp;
    [| discriminate].
  injection Hstart as <-.
  apply String.eqb_neq in He. apply String.eqb_neq in Hb.
  repeat split; auto; [exists p | exists s]; auto.
Qed.

Definition env_prod (k : string) : string :=
  if String.eqb k "SOURCE_ENV" then "prod"
  else if String.eqb k "SECRET_ID" then "github-secret"
  else if String.eqb k "TARGET_EVENT_BUS_ARN" then "arn:aws:events:bus" else "".

Lemma do_start_worker_witness :
  do_start (rt_ok env_prod)
    = Ok (mkWebhookWorker [pub_ok "arn:aws:events:bus"] "s3cret"
            (mkSourceConfig "github-webhook" "prod")) /\
  cfg_SourceApp (Source (mkWebhookWorker [pub_ok "arn:aws:events:bus"] "s3cret"
                           (mkSourceConfig "github-webhook" "prod"))) = "github-webhook".
Proof.
  assert (H : do_start (rt_ok env_prod)
    = Ok (mkWebhookWorker [pub_ok "arn:aws:events:bus"] "s3cret"
            (mkSourceConfig "github-webhook" "prod"))) by reflexivity.
  split; [exact H |].
  exact (proj1 (proj2 (proj2 (do_start_worker _ _ H)))).
Defined.
